(** * camera.js: the browser-side controller of the detection page

    A shallow embedding of [static/js/camera.js].  The script is a
    [DOMContentLoaded] listener that keeps references to five elements,
    declares [initVideoFeed] and [checkStatus], registers two click
    listeners, and starts a three-second status poll.

    The script is event driven, so the embedding is a state machine: the
    state holds the parts of the document the script touches, the clock, the
    pending timers and the [async] calls suspended at an [await]; a step is
    one task of the event loop (an element event, a timer firing, a promise
    settling).  Each function of the script is a computation in a small state
    and exception monad, written statement by statement.

    The five elements are taken to exist.  One clock, in milliseconds, gives
    both [Date.now()] and the instants timers are due; it never runs
    backwards, and any number of tasks may run within one millisecond.  The
    server and the network are free: a request may settle at any later time
    and in any way, and the stream may fail at any time. *)

From Stdlib Require Import ZArith List String Ascii Bool Lia.
From Stdlib Require Import DecimalString DecimalZ.
Import ListNotations.

Local Open Scope string_scope.
Local Open Scope Z_scope.
Local Set Warnings "-register-all".

(** ** Values the script receives *)

Module Js.

(** A number is kept as the two observations a script can make of it
    without arithmetic: whether it is zero (for [ToBoolean]) and its
    rendering by [Number::toString]. *)
Record number := { num_zero : bool; num_text : string }.

(** What [response.json()] can resolve to.  The members of an object are in
    the order of the body's text. *)
Inductive json :=
| JNull
| JBool (b : bool)
| JNumber (n : number)
| JString (s : string)
| JArray (elements : list json)
| JObject (members : list (string * json)).

(** A thrown value: the engine's and the script's errors all carry a name
    and a message. *)
Record error := { name : string; message : string }.

(** [JSON.parse] keeps the last value of a repeated key. *)
Fixpoint own_property (key : string) (members : list (string * json))
  : option json :=
  match members with
  | [] => None
  | (k, v) :: rest =>
      match own_property key rest with
      | Some w => Some w
      | None => if String.eqb k key then Some v else None
      end
  end.

(** The value of [data.key] when [data] is not [null]; [None] stands for
    [undefined].  A primitive or an array has no property of the names the
    script reads ([running], [status], [message]). *)
Definition property (key : string) (data : json) : option json :=
  match data with
  | JObject members => own_property key members
  | _ => None
  end.

(** [ToBoolean]. *)
Definition ToBoolean (v : option json) : bool :=
  match v with
  | None => false
  | Some JNull => false
  | Some (JBool b) => b
  | Some (JNumber n) => negb (num_zero n)
  | Some (JString s) => negb (String.eqb s "")
  | Some (JArray _) => true
  | Some (JObject _) => true
  end.

(** [ToString] of a parsed value.  An array is joined with commas, its
    [null] elements rendered empty.  An object goes through
    [Object.prototype.toString] unless it has a member [toString] of its
    own, which is never callable: then the conversion fails ([None]) with a
    [TypeError]. *)
Fixpoint ToString (v : json) : option string :=
  match v with
  | JNull => Some "null"
  | JBool true => Some "true"
  | JBool false => Some "false"
  | JNumber n => Some (num_text n)
  | JString s => Some s
  | JArray elements =>
      (fix join (l : list json) : option string :=
         match l with
         | [] => Some ""
         | x :: rest =>
             match match x with JNull => Some "" | _ => ToString x end with
             | None => None
             | Some item =>
                 match rest with
                 | [] => Some item
                 | _ :: _ =>
                     match join rest with
                     | None => None
                     | Some tail => Some (item ++ "," ++ tail)
                     end
                 end
             end
         end) elements
  | JObject members =>
      match own_property "toString" members with
      | Some _ => None
      | None => Some "[object Object]"
      end
  end.

(** [v === s] for a string literal [s]. *)
Definition strict_equals (v : option json) (s : string) : bool :=
  match v with
  | Some (JString t) => String.eqb t s
  | _ => false
  end.

(** How an expression or a statement completes. *)
Inductive completion (A : Type) : Type :=
| Normal (a : A)
| Throw (e : error).
Arguments Normal {A} a.
Arguments Throw {A} e.

(** The [TypeError] of a failed [ToString] (worded as V8 does). *)
Definition cannot_convert_error : error :=
  {| name := "TypeError";
     message := "Cannot convert object to primitive value" |}.

(** [new Error(m)]: an [undefined] argument leaves the inherited empty
    message, any other is converted to a string. *)
Definition new_Error (m : option json) : completion error :=
  match m with
  | None => Normal {| name := "Error"; message := "" |}
  | Some v =>
      match ToString v with
      | Some s => Normal {| name := "Error"; message := s |}
      | None => Throw cannot_convert_error
      end
  end.

(** What [throw c] throws: the value of [c], or what evaluating [c]
    threw. *)
Definition thrown (c : completion error) : error :=
  match c with
  | Normal e => e
  | Throw e => e
  end.

(** The [TypeError] of reading a property of [null] (worded as V8 does). *)
Definition null_read_error (key : string) : error :=
  {| name := "TypeError";
     message := "Cannot read properties of null (reading '" ++ key ++ "')" |}.

(** [Number::toString] of an integer of at most 21 digits, which is what
    [Date.now()] returns. *)
Definition integer_toString (n : Z) : string :=
  NilZero.string_of_int (Z.to_int n).

End Js.
Import Js.

(** ** The page *)

(** The functions the script hands to the runtime by reference. *)
Inductive fn :=
| initVideoFeed_fn
| checkStatus_fn
| onerror_fn          (* the function assigned to videoFeed.onerror *)
| startBtn_click_fn   (* the listener added to startBtn *)
| stopBtn_click_fn.   (* the listener added to stopBtn *)

(** The state of the five elements, as far as the script reads or writes
    it. *)
Record document := {
  videoFeed_src : string;
  videoFeed_onerror : option fn;
  startBtn_disabled : bool;
  startBtn_click : list fn;
  stopBtn_disabled : bool;
  stopBtn_click : list fn;
  statusDiv_textContent : string;
  statusDiv_style_color : string;
  errorDiv_textContent : string;
  errorDiv_style_display : string
}.

(** The three [async] functions, and the two [await]s each of them has. *)
Inductive frame := checkStatus_frame | start_frame | stop_frame.
Inductive await_point := await_fetch | await_json.

Record timer := { due : Z; callback : fn; repeat : option Z }.

Record init := { method : string; headers : list (string * string) }.

(** What leaves the page. *)
Inductive effect :=
| Fetch (url : string) (options : option init)
| LoadImage (src : string)
| ConsoleError (label : string) (e : error)
| SetTimeout (f : fn) (delay : Z)
| SetInterval (f : fn) (delay : Z).

Record runtime := {
  page : document;
  clock : Z;                                   (* milliseconds *)
  timers : list timer;
  pending : list (nat * (frame * await_point)); (* suspended async calls *)
  next_id : nat;
  trace : list effect
}.

(** ** The monad of one synchronous run *)

Definition M (A : Type) : Type := runtime -> completion A * runtime.

Definition ret {A} (a : A) : M A := fun st => (Normal a, st).

Definition bind {A B} (c : M A) (k : A -> M B) : M B :=
  fun st =>
    match c st with
    | (Normal a, st') => k a st'
    | (Throw e, st') => (Throw e, st')
    end.

Definition throw {A} (e : error) : M A := fun st => (Throw e, st).

(** An expression that does not touch the state. *)
Definition lift {A} (c : completion A) : M A := fun st => (c, st).

Definition try_catch (body : M unit) (handler : error -> M unit) : M unit :=
  fun st =>
    match body st with
    | (Normal a, st') => (Normal a, st')
    | (Throw e, st') => handler e st'
    end.

(** An exception that reaches the event loop is reported and dropped. *)
Definition exec (c : M unit) (st : runtime) : runtime := snd (c st).

Declare Scope js_scope.
Delimit Scope js_scope with js.
Notation "x <- c1 ;; c2" := (bind c1 (fun x => c2))
  (at level 61, c1 at next level, right associativity) : js_scope.
Notation "c1 ;; c2" := (bind c1 (fun _ => c2))
  (at level 61, right associativity) : js_scope.
Local Open Scope js_scope.

Definition modify (f : runtime -> runtime) : M unit :=
  fun st => (Normal tt, f st).

Definition with_page (f : document -> document) (st : runtime) : runtime :=
  {| page := f (page st); clock := clock st; timers := timers st;
     pending := pending st; next_id := next_id st; trace := trace st |}.

Definition with_clock (t : Z) (st : runtime) : runtime :=
  {| page := page st; clock := t; timers := timers st;
     pending := pending st; next_id := next_id st; trace := trace st |}.

Definition with_timers (f : list timer -> list timer) (st : runtime)
  : runtime :=
  {| page := page st; clock := clock st; timers := f (timers st);
     pending := pending st; next_id := next_id st; trace := trace st |}.

Definition with_pending
  (f : list (nat * (frame * await_point)) -> list (nat * (frame * await_point)))
  (st : runtime) : runtime :=
  {| page := page st; clock := clock st; timers := timers st;
     pending := f (pending st); next_id := next_id st; trace := trace st |}.

Definition with_next_id (n : nat) (st : runtime) : runtime :=
  {| page := page st; clock := clock st; timers := timers st;
     pending := pending st; next_id := n; trace := trace st |}.

Definition emit (e : effect) (st : runtime) : runtime :=
  {| page := page st; clock := clock st; timers := timers st;
     pending := pending st; next_id := next_id st;
     trace := (trace st ++ [e])%list |}.

(** ** The runtime's services *)

Definition Date_now : M Z := fun st => (Normal (clock st), st).

(** Reading [data.key]: [null] throws, anything else answers. *)
Definition get (data : json) (key : string) : M (option json) :=
  match data with
  | JNull => throw (null_read_error key)
  | _ => ret (property key data)
  end.

Definition console_error (label : string) (e : error) : M unit :=
  modify (emit (ConsoleError label e)).

Definition setTimeout (f : fn) (delay : Z) : M unit :=
  now <- Date_now ;;
  modify (with_timers
            (fun l => (l ++ [{| due := now + delay; callback := f;
                                repeat := None |}])%list)) ;;
  modify (emit (SetTimeout f delay)).

Definition setInterval (f : fn) (delay : Z) : M unit :=
  now <- Date_now ;;
  modify (with_timers
            (fun l => (l ++ [{| due := now + delay; callback := f;
                                repeat := Some delay |}])%list)) ;;
  modify (emit (SetInterval f delay)).

(** [await fetch(url, options)] in [caller]: the request leaves, and the
    caller is suspended until the promise settles. *)
Definition fetch (url : string) (options : option init) (caller : frame)
  : M unit :=
  modify (emit (Fetch url options)) ;;
  modify (fun st =>
            with_next_id (S (next_id st))
              (with_pending
                 (fun l => (l ++ [(next_id st, (caller, await_fetch))])%list) st)).

(** [await response.json()] in [caller], for the response of request
    [id]. *)
Definition response_json (id : nat) (caller : frame) : M unit :=
  modify (with_pending (fun l => (l ++ [(id, (caller, await_json))])%list)).

(** *** Element setters *)

Definition set_videoFeed_src (s : string) : M unit :=
  modify (with_page (fun d =>
    {| videoFeed_src := s;
       videoFeed_onerror := videoFeed_onerror d;
       startBtn_disabled := startBtn_disabled d;
       startBtn_click := startBtn_click d;
       stopBtn_disabled := stopBtn_disabled d;
       stopBtn_click := stopBtn_click d;
       statusDiv_textContent := statusDiv_textContent d;
       statusDiv_style_color := statusDiv_style_color d;
       errorDiv_textContent := errorDiv_textContent d;
       errorDiv_style_display := errorDiv_style_display d |})) ;;
  modify (emit (LoadImage s)).

Definition set_videoFeed_onerror (f : fn) : M unit :=
  modify (with_page (fun d =>
    {| videoFeed_src := videoFeed_src d;
       videoFeed_onerror := Some f;
       startBtn_disabled := startBtn_disabled d;
       startBtn_click := startBtn_click d;
       stopBtn_disabled := stopBtn_disabled d;
       stopBtn_click := stopBtn_click d;
       statusDiv_textContent := statusDiv_textContent d;
       statusDiv_style_color := statusDiv_style_color d;
       errorDiv_textContent := errorDiv_textContent d;
       errorDiv_style_display := errorDiv_style_display d |})).

Definition set_startBtn_disabled (b : bool) : M unit :=
  modify (with_page (fun d =>
    {| videoFeed_src := videoFeed_src d;
       videoFeed_onerror := videoFeed_onerror d;
       startBtn_disabled := b;
       startBtn_click := startBtn_click d;
       stopBtn_disabled := stopBtn_disabled d;
       stopBtn_click := stopBtn_click d;
       statusDiv_textContent := statusDiv_textContent d;
       statusDiv_style_color := statusDiv_style_color d;
       errorDiv_textContent := errorDiv_textContent d;
       errorDiv_style_display := errorDiv_style_display d |})).

Definition startBtn_addEventListener (f : fn) : M unit :=
  modify (with_page (fun d =>
    {| videoFeed_src := videoFeed_src d;
       videoFeed_onerror := videoFeed_onerror d;
       startBtn_disabled := startBtn_disabled d;
       startBtn_click := (startBtn_click d ++ [f])%list;
       stopBtn_disabled := stopBtn_disabled d;
       stopBtn_click := stopBtn_click d;
       statusDiv_textContent := statusDiv_textContent d;
       statusDiv_style_color := statusDiv_style_color d;
       errorDiv_textContent := errorDiv_textContent d;
       errorDiv_style_display := errorDiv_style_display d |})).

Definition set_stopBtn_disabled (b : bool) : M unit :=
  modify (with_page (fun d =>
    {| videoFeed_src := videoFeed_src d;
       videoFeed_onerror := videoFeed_onerror d;
       startBtn_disabled := startBtn_disabled d;
       startBtn_click := startBtn_click d;
       stopBtn_disabled := b;
       stopBtn_click := stopBtn_click d;
       statusDiv_textContent := statusDiv_textContent d;
       statusDiv_style_color := statusDiv_style_color d;
       errorDiv_textContent := errorDiv_textContent d;
       errorDiv_style_display := errorDiv_style_display d |})).

Definition stopBtn_addEventListener (f : fn) : M unit :=
  modify (with_page (fun d =>
    {| videoFeed_src := videoFeed_src d;
       videoFeed_onerror := videoFeed_onerror d;
       startBtn_disabled := startBtn_disabled d;
       startBtn_click := startBtn_click d;
       stopBtn_disabled := stopBtn_disabled d;
       stopBtn_click := (stopBtn_click d ++ [f])%list;
       statusDiv_textContent := statusDiv_textContent d;
       statusDiv_style_color := statusDiv_style_color d;
       errorDiv_textContent := errorDiv_textContent d;
       errorDiv_style_display := errorDiv_style_display d |})).

Definition set_statusDiv_textContent (s : string) : M unit :=
  modify (with_page (fun d =>
    {| videoFeed_src := videoFeed_src d;
       videoFeed_onerror := videoFeed_onerror d;
       startBtn_disabled := startBtn_disabled d;
       startBtn_click := startBtn_click d;
       stopBtn_disabled := stopBtn_disabled d;
       stopBtn_click := stopBtn_click d;
       statusDiv_textContent := s;
       statusDiv_style_color := statusDiv_style_color d;
       errorDiv_textContent := errorDiv_textContent d;
       errorDiv_style_display := errorDiv_style_display d |})).

Definition set_statusDiv_style_color (s : string) : M unit :=
  modify (with_page (fun d =>
    {| videoFeed_src := videoFeed_src d;
       videoFeed_onerror := videoFeed_onerror d;
       startBtn_disabled := startBtn_disabled d;
       startBtn_click := startBtn_click d;
       stopBtn_disabled := stopBtn_disabled d;
       stopBtn_click := stopBtn_click d;
       statusDiv_textContent := statusDiv_textContent d;
       statusDiv_style_color := s;
       errorDiv_textContent := errorDiv_textContent d;
       errorDiv_style_display := errorDiv_style_display d |})).

Definition set_errorDiv_textContent (s : string) : M unit :=
  modify (with_page (fun d =>
    {| videoFeed_src := videoFeed_src d;
       videoFeed_onerror := videoFeed_onerror d;
       startBtn_disabled := startBtn_disabled d;
       startBtn_click := startBtn_click d;
       stopBtn_disabled := stopBtn_disabled d;
       stopBtn_click := stopBtn_click d;
       statusDiv_textContent := statusDiv_textContent d;
       statusDiv_style_color := statusDiv_style_color d;
       errorDiv_textContent := s;
       errorDiv_style_display := errorDiv_style_display d |})).

Definition set_errorDiv_style_display (s : string) : M unit :=
  modify (with_page (fun d =>
    {| videoFeed_src := videoFeed_src d;
       videoFeed_onerror := videoFeed_onerror d;
       startBtn_disabled := startBtn_disabled d;
       startBtn_click := startBtn_click d;
       stopBtn_disabled := stopBtn_disabled d;
       stopBtn_click := stopBtn_click d;
       statusDiv_textContent := statusDiv_textContent d;
       statusDiv_style_color := statusDiv_style_color d;
       errorDiv_textContent := errorDiv_textContent d;
       errorDiv_style_display := s |})).

(** ** The script *)

(** [function initVideoFeed()] *)
Definition initVideoFeed : M unit :=
  now <- Date_now ;;
  set_videoFeed_src ("/video_feed?" ++ integer_toString now) ;;
  set_videoFeed_onerror onerror_fn.

(** The function [initVideoFeed] assigns to [videoFeed.onerror]. *)
Definition videoFeed_onerror_handler : M unit :=
  set_errorDiv_textContent "Video feed error. Retrying..." ;;
  set_errorDiv_style_display "block" ;;
  setTimeout initVideoFeed_fn 2000.

(** [async function checkStatus()], up to its first [await]. *)
Definition checkStatus : M unit :=
  fetch "/status" None checkStatus_frame.

(** The rest of its [try] block, once [data] is there. *)
Definition checkStatus_body (data : json) : M unit :=
  running <- get data "running" ;;
  set_statusDiv_textContent
    ("Status: " ++ (if ToBoolean running then "Running" else "Not Running")) ;;
  running <- get data "running" ;;
  set_statusDiv_style_color (if ToBoolean running then "green" else "red") ;;
  running <- get data "running" ;;
  set_startBtn_disabled (ToBoolean running) ;;
  running <- get data "running" ;;
  set_stopBtn_disabled (negb (ToBoolean running)).

Definition checkStatus_catch (error : error) : M unit :=
  console_error "Status check error:" error.

Definition json_post : init :=
  {| method := "POST";
     headers := [("Content-Type", "application/json")] |}.

(** The click listener of [startBtn], up to its first [await]. *)
Definition startBtn_click_listener : M unit :=
  fetch "/start" (Some json_post) start_frame.

Definition start_body (data : json) : M unit :=
  status <- get data "status" ;;
  (if strict_equals status "error"
   then message <- get data "message" ;;
        e <- lift (new_Error message) ;;
        throw e
   else ret tt) ;;
  initVideoFeed ;;
  checkStatus.

Definition start_catch (error : error) : M unit :=
  set_errorDiv_textContent (message error) ;;
  set_errorDiv_style_display "block".

(** The click listener of [stopBtn], up to its first [await]. *)
Definition stopBtn_click_listener : M unit :=
  fetch "/stop" (Some json_post) stop_frame.

Definition stop_body (data : json) : M unit :=
  checkStatus.

Definition stop_catch (error : error) : M unit :=
  set_errorDiv_textContent "Failed to stop detection" ;;
  set_errorDiv_style_display "block".

(** The [DOMContentLoaded] listener, after the element lookups. *)
Definition main : M unit :=
  startBtn_addEventListener startBtn_click_fn ;;
  stopBtn_addEventListener stopBtn_click_fn ;;
  initVideoFeed ;;
  checkStatus ;;
  setInterval checkStatus_fn 3000.

(** ** The event loop *)

Definition call (f : fn) : M unit :=
  match f with
  | initVideoFeed_fn => initVideoFeed
  | checkStatus_fn => checkStatus
  | onerror_fn => videoFeed_onerror_handler
  | startBtn_click_fn => startBtn_click_listener
  | stopBtn_click_fn => stopBtn_click_listener
  end.

Definition body (f : frame) (data : json) : M unit :=
  match f with
  | checkStatus_frame => checkStatus_body data
  | start_frame => start_body data
  | stop_frame => stop_body data
  end.

Definition handler (f : frame) (e : error) : M unit :=
  match f with
  | checkStatus_frame => checkStatus_catch e
  | start_frame => start_catch e
  | stop_frame => stop_catch e
  end.

Inductive settled (A : Type) : Type :=
| Resolved (a : A)
| Rejected (e : error).
Arguments Resolved {A} a.
Arguments Rejected {A} e.

(** The three functions have the same shape:
    [try { response = await fetch(..); data = await response.json(); body }
     catch (error) { handler }]. *)
Definition after_fetch (id : nat) (f : frame) (r : settled unit) : M unit :=
  match r with
  | Resolved _ => response_json id f
  | Rejected e => handler f e
  end.

Definition after_json (f : frame) (r : settled json) : M unit :=
  match r with
  | Resolved data => try_catch (body f data) (handler f)
  | Rejected e => handler f e
  end.

Fixpoint lookup (id : nat) (l : list (nat * (frame * await_point)))
  : option (frame * await_point) :=
  match l with
  | [] => None
  | (i, s) :: rest => if Nat.eqb i id then Some s else lookup id rest
  end.

Fixpoint remove (id : nat) (l : list (nat * (frame * await_point)))
  : list (nat * (frame * await_point)) :=
  match l with
  | [] => []
  | (i, s) :: rest =>
      if Nat.eqb i id then remove id rest else (i, s) :: remove id rest
  end.

(** Listeners run in the order they were added. *)
Definition dispatch (listeners : list fn) (st : runtime) : runtime :=
  fold_left (fun st f => exec (call f) st) listeners st.

(** The [k]-th pending timer fires: a timeout is dropped, an interval is set
    again one period ahead; no timer fires before it is due. *)
Definition fire (k : nat) (st : runtime) : option runtime :=
  match nth_error (timers st) k with
  | None => None
  | Some t =>
      if due t <=? clock st then
        let again :=
          match repeat t with
          | None => []
          | Some period =>
              [{| due := clock st + period; callback := callback t;
                  repeat := Some period |}]
          end in
        Some (exec (call (callback t))
                (with_timers
                   (fun l => (firstn k l ++ again ++ skipn (S k) l)%list) st))
      else None
  end.

Inductive button := startBtn | stopBtn.

Inductive event :=
| ImageError                                  (* videoFeed fails to load *)
| Click (b : button)
| TimerFires (k : nat)
| FetchSettles (id : nat) (r : settled unit)
| JsonSettles (id : nat) (r : settled json).

(** One task of the event loop, at clock reading [now].  [None]: the event
    cannot happen in this state. *)
Definition step (now : Z) (ev : event) (st : runtime) : option runtime :=
  if now <? clock st then None else
    let st := with_clock now st in
    match ev with
    | ImageError =>
        Some match videoFeed_onerror (page st) with
             | Some f => exec (call f) st
             | None => st
             end
    | Click startBtn => Some (dispatch (startBtn_click (page st)) st)
    | Click stopBtn => Some (dispatch (stopBtn_click (page st)) st)
    | TimerFires k => fire k st
    | FetchSettles id r =>
        match lookup id (pending st) with
        | Some (f, await_fetch) =>
            Some (exec (after_fetch id f r) (with_pending (remove id) st))
        | _ => None
        end
    | JsonSettles id r =>
        match lookup id (pending st) with
        | Some (f, await_json) =>
            Some (exec (after_json f r) (with_pending (remove id) st))
        | _ => None
        end
    end.

Fixpoint run (evs : list (Z * event)) (st : runtime) : option runtime :=
  match evs with
  | [] => Some st
  | (now, ev) :: rest =>
      match step now ev st with
      | Some st' => run rest st'
      | None => None
      end
  end.

(** The page once [DOMContentLoaded] has been handled at [now], from the
    document [d] as the markup gives it. *)
Definition boot (now : Z) (d : document) : runtime :=
  exec main
    {| page := d; clock := now; timers := []; pending := []; next_id := 0%nat;
       trace := [] |}.

(** The states of the page's lifetime.  No function of the script is
    registered on an element before the script has run. *)
Inductive reachable : runtime -> Prop :=
| reachable_boot now d :
    startBtn_click d = [] -> stopBtn_click d = [] ->
    reachable (boot now d)
| reachable_step st now ev st' :
    reachable st -> step now ev st = Some st' -> reachable st'.

(** The banner is shown by the inline [display: block]. *)
Definition banner_visible (st : runtime) : Prop :=
  errorDiv_style_display (page st) = "block".

(** [c] keeps [P]: if [P] holds before [c] runs, it holds after, however
    [c] completes. *)
Definition preserves {A} (P : runtime -> Prop) (c : M A) : Prop :=
  forall st, P st -> P (snd (c st)).

(** What the script has wired up once it has run: the error handler of the
    stream, one click listener on each control, and timers that call only
    [initVideoFeed] and [checkStatus]. *)
Definition wired (st : runtime) : Prop :=
  videoFeed_onerror (page st) = Some onerror_fn /\
  startBtn_click (page st) = [startBtn_click_fn] /\
  stopBtn_click (page st) = [stopBtn_click_fn] /\
  forall t, In t (timers st) ->
            callback t = initVideoFeed_fn \/ callback t = checkStatus_fn.

(** The failures that write to the banner: [failure st ev m] when event
    [ev], in state [st], is a stream error, a failed start or a failed stop,
    and [m] is the message it shows. *)
Inductive failure (st : runtime) : event -> string -> Prop :=
| stream_failure :
    failure st ImageError "Video feed error. Retrying..."
| start_request_failure id e :
    lookup id (pending st) = Some (start_frame, await_fetch) ->
    failure st (FetchSettles id (Rejected e)) (message e)
| start_parse_failure id e :
    lookup id (pending st) = Some (start_frame, await_json) ->
    failure st (JsonSettles id (Rejected e)) (message e)
| start_null_failure id :
    lookup id (pending st) = Some (start_frame, await_json) ->
    failure st (JsonSettles id (Resolved JNull))
      (message (null_read_error "status"))
| start_refused id data :
    lookup id (pending st) = Some (start_frame, await_json) ->
    data <> JNull ->
    property "status" data = Some (JString "error") ->
    failure st (JsonSettles id (Resolved data))
      (message (thrown (new_Error (property "message" data))))
| stop_request_failure id e :
    lookup id (pending st) = Some (stop_frame, await_fetch) ->
    failure st (FetchSettles id (Rejected e)) "Failed to stop detection"
| stop_parse_failure id e :
    lookup id (pending st) = Some (stop_frame, await_json) ->
    failure st (JsonSettles id (Rejected e)) "Failed to stop detection".

(** Sample documents and responses. *)
Definition blank : document :=
  {| videoFeed_src := ""; videoFeed_onerror := None;
     startBtn_disabled := false; startBtn_click := [];
     stopBtn_disabled := true; stopBtn_click := [];
     statusDiv_textContent := "Status: Not Running";
     statusDiv_style_color := "";
     errorDiv_textContent := ""; errorDiv_style_display := "none" |}.

Definition running_response (b : bool) : json :=
  JObject [("running", JBool b)].

Definition ok_response : json := JObject [("status", JString "ok")].

Definition error_response (m : string) : json :=
  JObject [("status", JString "error"); ("message", JString m)].

(** What [fetch] rejects with when the server cannot be reached, and what
    [response.json()] rejects with on a body that is not JSON. *)
Definition network_error : error :=
  {| name := "TypeError"; message := "Failed to fetch" |}.

Definition syntax_error : error :=
  {| name := "SyntaxError";
     message := "Unexpected token < in JSON at position 0" |}.

(** The state a sequence of events leads to (the state itself when one of
    them cannot happen). *)
Definition after (evs : list (Z * event)) (st : runtime) : runtime :=
  match run evs st with
  | Some st' => st'
  | None => st
  end.

(** The page loaded at second 1, and the same page once the first status
    response has arrived and its body is being read. *)
Definition loaded : runtime := boot 1000 blank.

Definition polled : runtime :=
  after [(1040, FetchSettles 0 (Resolved tt))] loaded.

(** The stream has failed once, and the banner says so. *)
Definition failed_once : runtime := after [(1500, ImageError)] loaded.

(** After that failure start has been clicked and its response has
    arrived. *)
Definition restarted : runtime :=
  after [(1600, Click startBtn); (1640, FetchSettles 1 (Resolved tt))]
    failed_once.

(** A start that succeeds and the status poll it triggers. *)
Definition restart_and_poll : list (Z * event) :=
  [(1600, Click startBtn); (1640, FetchSettles 1 (Resolved tt));
   (1700, JsonSettles 1 (Resolved ok_response));
   (1740, FetchSettles 2 (Resolved tt));
   (1750, JsonSettles 2 (Resolved (running_response true)))].

(** Start has been clicked and its response has arrived. *)
Definition started : runtime :=
  after [(1500, Click startBtn); (1540, FetchSettles 1 (Resolved tt))] loaded.

(** Stop has been clicked and its response has arrived. *)
Definition stopping : runtime :=
  after [(1500, Click stopBtn); (1540, FetchSettles 1 (Resolved tt))] loaded.

(** The first poll said running; the poll of second 4 has been answered and
    its body is being read. *)
Definition repolled : runtime :=
  after [(1050, JsonSettles 0 (Resolved (running_response true)));
         (4000, TimerFires 0); (4040, FetchSettles 1 (Resolved tt))] polled.

(** The stream failed at 1500, so a retry is due at 3500; start was clicked
    shortly before that, and the retry ran in the millisecond in which the
    body of the start response is about to be delivered. *)
Definition racing : runtime :=
  after [(1500, ImageError); (3490, Click startBtn);
         (3495, FetchSettles 1 (Resolved tt)); (3500, TimerFires 1)] loaded.

(** ** Observations of a state *)

(** What the user sees of the detection status: the label, its colour and
    the two controls. *)
Definition status_display (d : document) : string * string * bool * bool :=
  (statusDiv_textContent d, statusDiv_style_color d,
   startBtn_disabled d, stopBtn_disabled d).

(** The banner: its text and its inline display. *)
Definition banner (d : document) : string * string :=
  (errorDiv_textContent d, errorDiv_style_display d).

(** The stream sources loaded so far, oldest first. *)
Definition loads (tr : list effect) : list string :=
  flat_map (fun e => match e with LoadImage s => [s] | _ => [] end) tr.

(** The repeating timers, by callback and period. *)
Definition is_interval (t : timer) : bool :=
  match repeat t with
  | Some _ => true
  | None => false
  end.

Definition intervals (st : runtime) : list (fn * option Z) :=
  map (fun t => (callback t, repeat t)) (filter is_interval (timers st)).


(** The code an event runs, in a state where the script is wired. *)
Inductive runs (st : runtime) : event -> M unit -> Prop :=
| runs_onerror : runs st ImageError videoFeed_onerror_handler
| runs_start_click : runs st (Click startBtn) startBtn_click_listener
| runs_stop_click : runs st (Click stopBtn) stopBtn_click_listener
| runs_retry k t :
    nth_error (timers st) k = Some t -> callback t = initVideoFeed_fn ->
    runs st (TimerFires k) initVideoFeed
| runs_poll k t :
    nth_error (timers st) k = Some t -> callback t = checkStatus_fn ->
    runs st (TimerFires k) checkStatus
| runs_after_fetch id f r :
    lookup id (pending st) = Some (f, await_fetch) ->
    runs st (FetchSettles id r) (after_fetch id f r)
| runs_after_json id f r :
    lookup id (pending st) = Some (f, await_json) ->
    runs st (JsonSettles id r) (after_json f r).

(** The events that reload the stream: a retry that fires, and a start
    that succeeds. *)
Inductive reload (st : runtime) : event -> Prop :=
| retry_reload k t :
    nth_error (timers st) k = Some t -> callback t = initVideoFeed_fn ->
    reload st (TimerFires k)
| start_reload id data :
    lookup id (pending st) = Some (start_frame, await_json) ->
    data <> JNull ->
    property "status" data <> Some (JString "error") ->
    reload st (JsonSettles id (Resolved data)).

(** The events that answer a status poll with a usable body. *)
Inductive status_answer (st : runtime) : event -> json -> Prop :=
| status_answer_body id data :
    lookup id (pending st) = Some (checkStatus_frame, await_json) ->
    data <> JNull ->
    status_answer st (JsonSettles id (Resolved data)) data.

(** What a usable status body makes the page show. *)
Definition display_of (data : json) : string * string * bool * bool :=
  if ToBoolean (property "running" data)
  then ("Status: Running", "green", true, false)
  else ("Status: Not Running", "red", false, true).

(** Start has been clicked and its request is on its way. *)
Definition start_clicked : runtime := after [(1500, Click startBtn)] loaded.


(** ** How a step unfolds *)

Ltac conjuncts := repeat match goal with |- _ /\ _ => split end.
Ltac evaluate := vm_compute; reflexivity.

Arguments integer_toString : simpl never.

Lemma step_fetch_inv st now id f r st' :
  lookup id (pending st) = Some (f, await_fetch) ->
  step now (FetchSettles id r) st = Some st' ->
  st' = exec (after_fetch id f r) (with_pending (remove id) (with_clock now st)).
Proof.
  intros L. unfold step. destruct (now <? clock st); [discriminate|].
  cbn [pending with_clock]. rewrite L. now intros [= <-].
Qed.

Lemma step_json_inv st now id f r st' :
  lookup id (pending st) = Some (f, await_json) ->
  step now (JsonSettles id r) st = Some st' ->
  st' = exec (after_json f r) (with_pending (remove id) (with_clock now st)).
Proof.
  intros L. unfold step. destruct (now <? clock st); [discriminate|].
  cbn [pending with_clock]. rewrite L. now intros [= <-].
Qed.

Lemma step_fetch st now id f r :
  lookup id (pending st) = Some (f, await_fetch) -> clock st <= now ->
  step now (FetchSettles id r) st
  = Some (exec (after_fetch id f r)
            (with_pending (remove id) (with_clock now st))).
Proof.
  intros L C. unfold step.
  destruct (now <? clock st) eqn:E; [apply Z.ltb_lt in E; lia|].
  cbn [pending with_clock]. now rewrite L.
Qed.

Lemma step_json st now id f r :
  lookup id (pending st) = Some (f, await_json) -> clock st <= now ->
  step now (JsonSettles id r) st
  = Some (exec (after_json f r)
            (with_pending (remove id) (with_clock now st))).
Proof.
  intros L C. unfold step.
  destruct (now <? clock st) eqn:E; [apply Z.ltb_lt in E; lia|].
  cbn [pending with_clock]. now rewrite L.
Qed.

(** The body of [checkStatus] on a value that is not [null]. *)
Lemma checkStatus_body_run data st :
  data <> JNull ->
  let running := ToBoolean (property "running" data) in
  checkStatus_body data st
  = (Normal tt,
     with_page (fun d =>
       {| videoFeed_src := videoFeed_src d;
          videoFeed_onerror := videoFeed_onerror d;
          startBtn_disabled := running;
          startBtn_click := startBtn_click d;
          stopBtn_disabled := negb running;
          stopBtn_click := stopBtn_click d;
          statusDiv_textContent :=
            if running then "Status: Running" else "Status: Not Running";
          statusDiv_style_color := if running then "green" else "red";
          errorDiv_textContent := errorDiv_textContent d;
          errorDiv_style_display := errorDiv_style_display d |}) st).
Proof.
  intros N running. subst running.
  destruct data; [congruence | ..];
    cbv beta iota delta [checkStatus_body bind get ret];
    destruct (ToBoolean _); reflexivity.
Qed.

(** ** Facts about the functions *)

Lemma integer_toString_inj a b :
  integer_toString a = integer_toString b -> a = b.
Proof.
  intros E. apply DecimalZ.to_int_inj.
  assert (P : forall z, NilZero.int_of_string (integer_toString z)
                        = Some (Z.to_int z)).
  { intros z. apply NilZero.isi; destruct z; cbn; try discriminate;
      intros [= N]; now apply DecimalPos.Unsigned.to_uint_nonnil in N. }
  apply (f_equal NilZero.int_of_string) in E. rewrite !P in E.
  now injection E.
Qed.

(** The body of the start listener on a value that is not [null]. *)
Lemma start_body_run data st :
  data <> JNull ->
  start_body data st
  = if strict_equals (property "status" data) "error"
    then (Throw (thrown (new_Error (property "message" data))), st)
    else (Normal tt, exec checkStatus (exec initVideoFeed st)).
Proof.
  intros N.
  destruct data; [congruence | ..];
    cbv beta iota delta [start_body bind get ret throw lift];
    destruct (strict_equals _ _); try reflexivity;
    destruct (new_Error _); reflexivity.
Qed.

Lemma json_null_dec data : {data = JNull} + {data <> JNull}.
Proof. destruct data; (now left) || (right; discriminate). Qed.

Lemma strict_equals_spec v s :
  strict_equals v s = true <-> v = Some (JString s).
Proof.
  destruct v as [[]|]; cbn; try (split; congruence).
  rewrite String.eqb_eq. split; congruence.
Qed.

Lemma run_reachable evs : forall st st',
  reachable st -> run evs st = Some st' -> reachable st'.
Proof.
  induction evs as [|[now ev] evs IH]; cbn; intros st st' R E.
  - now injection E as <-.
  - destruct (step now ev st) as [st1|] eqn:S; [|discriminate].
    eapply IH; [|exact E]. eapply reachable_step; eassumption.
Qed.

Lemma after_reachable evs st : reachable st -> reachable (after evs st).
Proof.
  intros R. unfold after. destruct (run evs st) eqn:E; [|exact R].
  eapply run_reachable; eassumption.
Qed.

Lemma loaded_reachable : reachable loaded.
Proof. now apply reachable_boot. Qed.

Lemma lookup_remove id l : lookup id (remove id l) = None.
Proof.
  induction l as [|[i s] l IH]; cbn; [reflexivity|].
  destruct (Nat.eqb i id) eqn:E; [exact IH|]. cbn. now rewrite E.
Qed.

Lemma lookup_app id l l' :
  lookup id (l ++ l')
  = match lookup id l with Some s => Some s | None => lookup id l' end.
Proof.
  induction l as [|[i s] l IH]; cbn; [reflexivity|].
  now destruct (Nat.eqb i id).
Qed.

Lemma remove_app id l l' : remove id (l ++ l') = (remove id l ++ remove id l')%list.
Proof.
  induction l as [|[i s] l IH]; cbn; [reflexivity|].
  destruct (Nat.eqb i id); cbn; now rewrite IH.
Qed.

Lemma remove_remove id l : remove id (remove id l) = remove id l.
Proof.
  induction l as [|[i s] l IH]; cbn; [reflexivity|].
  destruct (Nat.eqb i id) eqn:E; [exact IH|]. cbn. now rewrite E, IH.
Qed.

(** A response arrives at [t1] and its body settles at [t2]. *)
Lemma run_response st t1 t2 id f r :
  lookup id (pending st) = Some (f, await_fetch) ->
  clock st <= t1 <= t2 ->
  run [(t1, FetchSettles id (Resolved tt)); (t2, JsonSettles id r)] st
  = Some (exec (after_json f r)
            (with_pending (remove id) (with_clock t2 st))).
Proof.
  intros L [C1 C2]. cbn [run].
  rewrite (step_fetch _ _ _ _ _ L C1).
  rewrite (step_json _ _ _ f).
  - unfold exec at 2, after_fetch, response_json, modify, with_pending at 1 2.
    cbn [snd pending with_clock page clock timers next_id trace].
    unfold with_clock, with_pending.
    cbn [snd pending page clock timers next_id trace].
    rewrite remove_app, remove_remove. cbn [remove].
    rewrite Nat.eqb_refl, app_nil_r. reflexivity.
  - cbn. rewrite lookup_app, lookup_remove. cbn. now rewrite Nat.eqb_refl.
  - cbn. exact C2.
Qed.

(** ** The status poll *)

(** C1: when a status poll succeeds (the body parses to a value whose
    [running] can be read, that is, anything but [null]), a [running] of
    [true] gives the text "Status: Running" in green, the start control
    disabled and the stop control enabled; a [running] of [false] gives
    "Status: Not Running" in red, start enabled and stop disabled; and in
    every case exactly one of the two controls is enabled. *)
Theorem checkStatus_shows_running st now id data st' :
  lookup id (pending st) = Some (checkStatus_frame, await_json) ->
  step now (JsonSettles id (Resolved data)) st = Some st' ->
  data <> JNull ->
  (property "running" data = Some (JBool true) ->
   statusDiv_textContent (page st') = "Status: Running" /\
   statusDiv_style_color (page st') = "green" /\
   startBtn_disabled (page st') = true /\
   stopBtn_disabled (page st') = false) /\
  (property "running" data = Some (JBool false) ->
   statusDiv_textContent (page st') = "Status: Not Running" /\
   statusDiv_style_color (page st') = "red" /\
   startBtn_disabled (page st') = false /\
   stopBtn_disabled (page st') = true) /\
  startBtn_disabled (page st') = negb (stopBtn_disabled (page st')).
Proof.
  intros L S N. rewrite (step_json_inv _ _ _ _ _ _ L S).
  unfold exec, after_json, body, try_catch.
  rewrite checkStatus_body_run by exact N. cbn.
  split; [|split].
  - intros E. rewrite E. repeat split.
  - intros E. rewrite E. repeat split.
  - now rewrite negb_involutive.
Qed.

Lemma checkStatus_shows_running_witness :
  let st' := after [(1050, JsonSettles 0 (Resolved (running_response true)))]
               polled in
  statusDiv_textContent (page st') = "Status: Running" /\
  startBtn_disabled (page st') = negb (stopBtn_disabled (page st')).
Proof.
  intros st'.
  destruct (checkStatus_shows_running polled 1050 0%nat
              (running_response true) st' eq_refl eq_refl
              ltac:(discriminate)) as (T & _ & X).
  split; [apply T; reflexivity | exact X].
Defined.

(** ** The start listener *)

(** C2: when the response to start parses to an object whose [status] is
    "error" and whose [message] is the string [X], the banner is shown with
    the text [X]; the stream source is not touched, nothing is loaded and no
    status request leaves. *)
Theorem start_error_shows_message st now id members X st' :
  lookup id (pending st) = Some (start_frame, await_json) ->
  own_property "status" members = Some (JString "error") ->
  own_property "message" members = Some (JString X) ->
  step now (JsonSettles id (Resolved (JObject members))) st = Some st' ->
  banner_visible st' /\
  errorDiv_textContent (page st') = X /\
  videoFeed_src (page st') = videoFeed_src (page st) /\
  trace st' = trace st /\
  pending st' = remove id (pending st).
Proof.
  intros L Es Em S. rewrite (step_json_inv _ _ _ _ _ _ L S).
  unfold exec, after_json, body, try_catch, banner_visible.
  rewrite start_body_run by discriminate.
  cbn [property]. rewrite Es, Em. cbn. repeat split.
Qed.

Lemma start_error_shows_message_witness :
  let st' := after [(1600, JsonSettles 1
                             (Resolved (error_response "Camera not found")))]
               started in
  banner_visible st' /\
  errorDiv_textContent (page st') = "Camera not found" /\
  videoFeed_src (page st') = videoFeed_src (page started) /\
  trace st' = trace started /\
  pending st' = remove 1 (pending started).
Proof.
  intros st'.
  exact (start_error_shows_message started 1600 1%nat
           [("status", JString "error");
            ("message", JString "Camera not found")]
           "Camera not found" st' eq_refl eq_refl eq_refl eq_refl).
Defined.

(** C3, as the claim has it, fails when the clock reads what it read at the
    previous load: here the retry timer and the start response are handled
    in the same millisecond, and the source is assigned the string it
    already holds. *)
Lemma start_ok_same_millisecond :
  reachable racing /\
  lookup 1 (pending racing) = Some (start_frame, await_json) /\
  exists st',
    step 3500 (JsonSettles 1 (Resolved ok_response)) racing = Some st' /\
    videoFeed_src (page st') = videoFeed_src (page racing).
Proof.
  split; [|split].
  - apply after_reachable, loaded_reachable.
  - evaluate.
  - exists (after [(3500, JsonSettles 1 (Resolved ok_response))] racing).
    split; evaluate.
Qed.

(** C3, amended: when the response to start parses to [{"status":"ok"}],
    the stream source is set to the video endpoint followed by [?] and the
    clock's reading in milliseconds, and in the same task the status request
    leaves, no timer involved; the new source differs from the previous one
    whenever the clock reads something else than it did when the previous
    one was set. *)
Theorem start_ok_reloads_and_checks st now id st' :
  lookup id (pending st) = Some (start_frame, await_json) ->
  step now (JsonSettles id (Resolved ok_response)) st = Some st' ->
  videoFeed_src (page st') = "/video_feed?" ++ integer_toString now /\
  trace st'
  = (trace st ++ [LoadImage ("/video_feed?" ++ integer_toString now);
                  Fetch "/status" None])%list /\
  pending st'
  = (remove id (pending st)
       ++ [(next_id st, (checkStatus_frame, await_fetch))])%list /\
  timers st' = timers st /\
  forall before,
    videoFeed_src (page st) = "/video_feed?" ++ integer_toString before ->
    before <> now ->
    videoFeed_src (page st') <> videoFeed_src (page st).
Proof.
  intros L S. rewrite (step_json_inv _ _ _ _ _ _ L S).
  unfold exec, after_json, body, try_catch.
  rewrite start_body_run by discriminate.
  cbn. rewrite <- app_assoc. repeat split.
  intros before E D. rewrite E. intros [= I].
  apply integer_toString_inj in I. congruence.
Qed.

Lemma start_ok_reloads_and_checks_witness :
  let st' := after [(1600, JsonSettles 1 (Resolved ok_response))] started in
  videoFeed_src (page st') = "/video_feed?1600" /\
  trace st'
  = (trace started ++ [LoadImage "/video_feed?1600"; Fetch "/status" None])%list /\
  videoFeed_src (page st') <> videoFeed_src (page started).
Proof.
  intros st'.
  destruct (start_ok_reloads_and_checks started 1600 1%nat st'
              eq_refl eq_refl) as (A & B & _ & _ & C).
  split; [exact A | split; [exact B | apply (C 1000); [reflexivity | lia]]].
Defined.

(** C9, as the claim has it, fails on the body [null]: it parses, it has no
    [status] equal to "error", and still the error branch runs, because
    reading [data.status] throws. *)
Lemma start_null_takes_error_branch :
  property "status" JNull <> Some (JString "error") /\
  exists st',
    step 1600 (JsonSettles 1 (Resolved JNull)) started = Some st' /\
    banner_visible st' /\
    errorDiv_textContent (page st') = message (null_read_error "status") /\
    videoFeed_src (page st') = videoFeed_src (page started) /\
    trace st' = trace started.
Proof.
  split; [discriminate|].
  exists (after [(1600, JsonSettles 1 (Resolved JNull))] started).
  conjuncts; evaluate.
Qed.

(** C9, amended: every parsed response other than [null] whose [status] is
    not exactly the string "error" (none at all, or any other value) counts
    as success: the feed is reloaded and the status request leaves, and the
    banner is left alone.  The error branch runs when [status] is exactly
    "error" and when the response is [null] (and, see [start_rejected], when
    the request or the parse fails); it shows the banner and neither reloads
    nor checks. *)
Theorem start_succeeds_unless_error st now id data st' :
  lookup id (pending st) = Some (start_frame, await_json) ->
  step now (JsonSettles id (Resolved data)) st = Some st' ->
  (data <> JNull ->
   property "status" data <> Some (JString "error") ->
   videoFeed_src (page st') = "/video_feed?" ++ integer_toString now /\
   trace st'
   = (trace st ++ [LoadImage ("/video_feed?" ++ integer_toString now);
                   Fetch "/status" None])%list /\
   errorDiv_textContent (page st') = errorDiv_textContent (page st) /\
   errorDiv_style_display (page st') = errorDiv_style_display (page st)) /\
  (property "status" data = Some (JString "error") ->
   banner_visible st' /\
   errorDiv_textContent (page st')
   = message (thrown (new_Error (property "message" data))) /\
   videoFeed_src (page st') = videoFeed_src (page st) /\
   trace st' = trace st) /\
  (data = JNull ->
   banner_visible st' /\
   errorDiv_textContent (page st') = message (null_read_error "status") /\
   videoFeed_src (page st') = videoFeed_src (page st) /\
   trace st' = trace st).
Proof.
  intros L S. rewrite (step_json_inv _ _ _ _ _ _ L S).
  unfold exec, after_json, body, try_catch, banner_visible.
  destruct (json_null_dec data) as [->|N].
  { conjuncts; [congruence | discriminate | intros _; repeat split]. }
  rewrite start_body_run by exact N.
  destruct (strict_equals (property "status" data) "error") eqn:E.
  - apply strict_equals_spec in E.
    conjuncts; [congruence | intros _; cbn; repeat split | congruence].
  - conjuncts.
    + intros _ _. cbn. rewrite <- app_assoc. repeat split.
    + intros E'. apply strict_equals_spec in E'. congruence.
    + congruence.
Qed.

Lemma start_succeeds_unless_error_witness :
  let st' := after [(1600, JsonSettles 1 (Resolved (JObject [])))] started in
  videoFeed_src (page st') = "/video_feed?1600" /\
  trace st'
  = (trace started ++ [LoadImage "/video_feed?1600"; Fetch "/status" None])%list.
Proof.
  intros st'.
  destruct (start_succeeds_unless_error started 1600 1%nat (JObject []) st'
              eq_refl eq_refl) as (A & _).
  destruct (A ltac:(discriminate) ltac:(discriminate)) as (B & C & _).
  split; [exact B | exact C].
Defined.

(** The other two ways into the error branch of start: the request or the
    parse fails with [e], and the banner shows [e]'s message. *)
Lemma start_rejected st now ev id st' e :
  (ev = FetchSettles id (Rejected e) /\
   lookup id (pending st) = Some (start_frame, await_fetch)) \/
  (ev = JsonSettles id (Rejected e) /\
   lookup id (pending st) = Some (start_frame, await_json)) ->
  step now ev st = Some st' ->
  banner_visible st' /\
  errorDiv_textContent (page st') = message e /\
  videoFeed_src (page st') = videoFeed_src (page st) /\
  trace st' = trace st.
Proof.
  intros [[-> L]|[-> L]] S.
  - rewrite (step_fetch_inv _ _ _ _ _ _ L S). repeat split.
  - rewrite (step_json_inv _ _ _ _ _ _ L S). repeat split.
Qed.

(** ** Failures of the status poll *)

(** C6: when a status poll fails, the request rejecting or the body failing
    to parse, [checkStatus] logs the error and nothing else: the document
    (status text and colour, both controls, the banner) is as it was, and no
    timer is set. *)
Theorem checkStatus_failure_only_logs st now ev id e st' :
  (ev = FetchSettles id (Rejected e) /\
   lookup id (pending st) = Some (checkStatus_frame, await_fetch)) \/
  (ev = JsonSettles id (Rejected e) /\
   lookup id (pending st) = Some (checkStatus_frame, await_json)) ->
  step now ev st = Some st' ->
  page st' = page st /\
  trace st' = (trace st ++ [ConsoleError "Status check error:" e])%list /\
  timers st' = timers st /\
  pending st' = remove id (pending st).
Proof.
  intros [[-> L]|[-> L]] S.
  - rewrite (step_fetch_inv _ _ _ _ _ _ L S). repeat split.
  - rewrite (step_json_inv _ _ _ _ _ _ L S). repeat split.
Qed.

Lemma checkStatus_failure_only_logs_witness :
  let st' := after [(1100, FetchSettles 0 (Rejected network_error))] loaded in
  page st' = page loaded /\
  trace st'
  = (trace loaded ++ [ConsoleError "Status check error:" network_error])%list /\
  timers st' = timers loaded /\
  pending st' = remove 0 (pending loaded).
Proof.
  intros st'.
  exact (checkStatus_failure_only_logs loaded 1100
           (FetchSettles 0 (Rejected network_error)) 0%nat network_error st'
           (or_introl (conj eq_refl eq_refl)) eq_refl).
Defined.

(** C5, as the claim has it, fails on a body that is JSON but has no
    [running]: with [{}] the catch path does not run (nothing is logged) and
    the page, which showed "Status: Running", is rewritten as not running;
    the same poll failing to parse logs the error and leaves the page. *)
Lemma status_without_running_is_not_an_error :
  lookup 1 (pending repolled) = Some (checkStatus_frame, await_json) /\
  property "running" (JObject []) = None /\
  statusDiv_textContent (page repolled) = "Status: Running" /\
  (exists st',
     step 4050 (JsonSettles 1 (Resolved (JObject []))) repolled = Some st' /\
     trace st' = trace repolled /\
     statusDiv_textContent (page st') = "Status: Not Running" /\
     statusDiv_style_color (page st') = "red" /\
     startBtn_disabled (page st') = false /\
     stopBtn_disabled (page st') = true) /\
  (exists st',
     step 4050 (JsonSettles 1 (Rejected syntax_error)) repolled = Some st' /\
     trace st'
     = (trace repolled
          ++ [ConsoleError "Status check error:" syntax_error])%list /\
     page st' = page repolled).
Proof.
  conjuncts; try evaluate.
  - exists (after [(4050, JsonSettles 1 (Resolved (JObject [])))] repolled).
    conjuncts; evaluate.
  - exists (after [(4050, JsonSettles 1 (Rejected syntax_error))] repolled).
    conjuncts; evaluate.
Qed.

(** C5, amended: a status response whose body is not JSON, or is [null],
    is handled exactly as a transport error is: the same catch path runs on
    the error and the page ends in the same state.  A body that is JSON but
    lacks [running] is no error: it is shown as not running. *)
Theorem status_malformed_body st t1 t2 id :
  lookup id (pending st) = Some (checkStatus_frame, await_fetch) ->
  clock st <= t1 <= t2 ->
  (forall e,
     step t2 (FetchSettles id (Rejected e)) st
     = Some (exec (checkStatus_catch e)
               (with_pending (remove id) (with_clock t2 st))) /\
     run [(t1, FetchSettles id (Resolved tt));
          (t2, JsonSettles id (Rejected e))] st
     = step t2 (FetchSettles id (Rejected e)) st) /\
  run [(t1, FetchSettles id (Resolved tt));
       (t2, JsonSettles id (Resolved JNull))] st
  = step t2 (FetchSettles id (Rejected (null_read_error "running"))) st /\
  (forall data st',
     data <> JNull -> property "running" data = None ->
     run [(t1, FetchSettles id (Resolved tt));
          (t2, JsonSettles id (Resolved data))] st = Some st' ->
     trace st' = trace st /\
     statusDiv_textContent (page st') = "Status: Not Running" /\
     statusDiv_style_color (page st') = "red" /\
     startBtn_disabled (page st') = false /\
     stopBtn_disabled (page st') = true).
Proof.
  intros L C.
  assert (C2 : clock st <= t2) by lia.
  split; [|split].
  - intros e. rewrite (run_response _ _ _ _ _ _ L C).
    rewrite (step_fetch _ _ _ _ _ L C2). split; reflexivity.
  - rewrite (run_response _ _ _ _ _ _ L C).
    rewrite (step_fetch _ _ _ _ _ L C2). reflexivity.
  - intros data st' N E. rewrite (run_response _ _ _ _ _ _ L C).
    intros [= <-]. unfold exec, after_json, body, try_catch.
    rewrite checkStatus_body_run by exact N. rewrite E. cbn. repeat split.
Qed.

Lemma status_malformed_body_witness :
  run [(1040, FetchSettles 0 (Resolved tt));
       (1100, JsonSettles 0 (Rejected syntax_error))] loaded
  = step 1100 (FetchSettles 0 (Rejected syntax_error)) loaded.
Proof.
  destruct (status_malformed_body loaded 1040 1100 0%nat eq_refl
              ltac:(cbn; lia)) as (A & _).
  exact (proj2 (A syntax_error)).
Defined.

(** ** The stop listener *)

(** C4, as the claim has it, fails on a body that does not parse: the
    response has resolved, and no status request follows. *)
Lemma stop_unparsed_body_no_recheck :
  lookup 1 (pending stopping) = Some (stop_frame, await_json) /\
  exists st',
    step 1600 (JsonSettles 1 (Rejected syntax_error)) stopping = Some st' /\
    trace st' = trace stopping /\
    pending st' = remove 1 (pending stopping).
Proof.
  split; [evaluate|].
  exists (after [(1600, JsonSettles 1 (Rejected syntax_error))] stopping).
  conjuncts; evaluate.
Qed.

(** C4, amended: when the body of the stop response parses as JSON, to
    any value whatever, the stop listener issues exactly one status request
    and touches nothing on the page. *)
Theorem stop_rechecks_once st now id data st' :
  lookup id (pending st) = Some (stop_frame, await_json) ->
  step now (JsonSettles id (Resolved data)) st = Some st' ->
  trace st' = (trace st ++ [Fetch "/status" None])%list /\
  pending st'
  = (remove id (pending st)
       ++ [(next_id st, (checkStatus_frame, await_fetch))])%list /\
  page st' = page st.
Proof.
  intros L S. rewrite (step_json_inv _ _ _ _ _ _ L S). repeat split.
Qed.

Lemma stop_rechecks_once_witness :
  let st' := after [(1600, JsonSettles 1 (Resolved (JString "stopped")))]
               stopping in
  trace st' = (trace stopping ++ [Fetch "/status" None])%list.
Proof.
  intros st'.
  exact (proj1 (stop_rechecks_once stopping 1600 1%nat (JString "stopped") st'
                  eq_refl eq_refl)).
Defined.

(** C7: when stop fails, the request rejecting or the body failing to
    parse, the banner is shown with the fixed text "Failed to stop
    detection", whatever the error says; no status request follows. *)
Theorem stop_failure_fixed_text st now ev id e st' :
  (ev = FetchSettles id (Rejected e) /\
   lookup id (pending st) = Some (stop_frame, await_fetch)) \/
  (ev = JsonSettles id (Rejected e) /\
   lookup id (pending st) = Some (stop_frame, await_json)) ->
  step now ev st = Some st' ->
  errorDiv_textContent (page st') = "Failed to stop detection" /\
  banner_visible st' /\
  trace st' = trace st.
Proof.
  intros [[-> L]|[-> L]] S.
  - rewrite (step_fetch_inv _ _ _ _ _ _ L S). repeat split.
  - rewrite (step_json_inv _ _ _ _ _ _ L S). repeat split.
Qed.

Lemma stop_failure_fixed_text_witness :
  let st' := after [(1600, JsonSettles 1 (Rejected syntax_error))] stopping in
  errorDiv_textContent (page st') = "Failed to stop detection" /\
  banner_visible st' /\
  trace st' = trace stopping.
Proof.
  intros st'.
  exact (stop_failure_fixed_text stopping 1600
           (JsonSettles 1 (Rejected syntax_error)) 1%nat syntax_error st'
           (or_intror (conj eq_refl eq_refl)) eq_refl).
Defined.

(** ** Invariants of the event loop *)

Section Invariant.

Variable P : runtime -> Prop.

(** [P] survives what the runtime does ... *)
Hypothesis P_clock : forall t st, P st -> P (with_clock t st).
Hypothesis P_emit : forall e st, P st -> P (emit e st).
Hypothesis P_pending : forall g st, P st -> P (with_pending g st).
Hypothesis P_next_id : forall n st, P st -> P (with_next_id n st).
Hypothesis P_retry : preserves P (setTimeout initVideoFeed_fn 2000).
Hypothesis P_fired : forall k t st,
  nth_error (timers st) k = Some t -> P st ->
  P (with_timers
       (fun l =>
          (firstn k l
             ++ match repeat t with
                | None => []
                | Some period =>
                    [{| due := clock st + period; callback := callback t;
                        repeat := Some period |}]
                end ++ skipn (S k) l)%list) st).

(** ... and the assignments the script makes. *)
Hypothesis P_src : forall s, preserves P (set_videoFeed_src s).
Hypothesis P_onerror : preserves P (set_videoFeed_onerror onerror_fn).
Hypothesis P_status_text : forall s, preserves P (set_statusDiv_textContent s).
Hypothesis P_status_color :
  forall s, preserves P (set_statusDiv_style_color s).
Hypothesis P_start : forall b, preserves P (set_startBtn_disabled b).
Hypothesis P_stop : forall b, preserves P (set_stopBtn_disabled b).
Hypothesis P_error_text : forall s, preserves P (set_errorDiv_textContent s).
Hypothesis P_display : preserves P (set_errorDiv_style_display "block").

Lemma preserves_ret A (a : A) : preserves P (ret a).
Proof. intros st H. exact H. Qed.

Lemma preserves_throw A e : preserves P (@throw A e).
Proof. intros st H. exact H. Qed.

Lemma preserves_bind A B (c : M A) (k : A -> M B) :
  preserves P c -> (forall a, preserves P (k a)) -> preserves P (bind c k).
Proof.
  intros Hc Hk st H. unfold bind. specialize (Hc st H).
  destruct (c st) as [[a|e] st1]; cbn in *; [now apply Hk | exact Hc].
Qed.

Lemma preserves_try_catch body handler :
  preserves P body -> (forall e, preserves P (handler e)) ->
  preserves P (try_catch body handler).
Proof.
  intros Hb Hh st H. unfold try_catch. specialize (Hb st H).
  destruct (body st) as [[a|e] st1]; cbn in *; [exact Hb | now apply Hh].
Qed.

Lemma preserves_lift A (c : completion A) : preserves P (lift c).
Proof. intros st H. exact H. Qed.

Lemma preserves_get data key : preserves P (get data key).
Proof. destruct data; intros st H; exact H. Qed.

Lemma preserves_Date_now : preserves P Date_now.
Proof. intros st H. exact H. Qed.

Lemma preserves_console_error label e : preserves P (console_error label e).
Proof. intros st H. now apply P_emit. Qed.

Lemma preserves_fetch url options caller :
  preserves P (fetch url options caller).
Proof. intros st H. now apply P_next_id, P_pending, P_emit. Qed.

Lemma preserves_response_json id caller :
  preserves P (response_json id caller).
Proof. intros st H. now apply P_pending. Qed.

Hint Resolve preserves_ret preserves_throw preserves_lift preserves_get
  preserves_Date_now
  preserves_console_error preserves_fetch preserves_response_json
  P_retry P_src P_onerror P_status_text P_status_color P_start P_stop
  P_error_text P_display : core.

Ltac straight :=
  repeat match goal with
         | |- preserves _ (bind _ _) => apply preserves_bind; [|intros ?]
         | |- preserves _ (try_catch _ _) =>
             apply preserves_try_catch; [|intros ?]
         end;
  auto.

Lemma preserves_initVideoFeed : preserves P initVideoFeed.
Proof. unfold initVideoFeed. straight. Qed.

Lemma preserves_checkStatus : preserves P checkStatus.
Proof. unfold checkStatus. straight. Qed.

Lemma preserves_call f : preserves P (call f).
Proof.
  destruct f; cbn [call].
  - apply preserves_initVideoFeed.
  - apply preserves_checkStatus.
  - unfold videoFeed_onerror_handler. straight.
  - unfold startBtn_click_listener. straight.
  - unfold stopBtn_click_listener. straight.
Qed.

Lemma preserves_handler f e : preserves P (handler f e).
Proof.
  destruct f; cbn [handler];
    unfold checkStatus_catch, start_catch, stop_catch; straight.
Qed.

Lemma preserves_body f data : preserves P (body f data).
Proof.
  destruct f; cbn [body].
  - unfold checkStatus_body. straight.
  - unfold start_body. apply preserves_bind; [auto|]. intros status.
    apply preserves_bind.
    + destruct (strict_equals status "error"); straight.
    + intros _. apply preserves_bind; [apply preserves_initVideoFeed|].
      intros _. apply preserves_checkStatus.
  - apply preserves_checkStatus.
Qed.

Lemma preserves_after_fetch id f r : preserves P (after_fetch id f r).
Proof. destruct r; cbn [after_fetch]; auto using preserves_handler. Qed.

Lemma preserves_after_json f r : preserves P (after_json f r).
Proof.
  destruct r; cbn [after_json].
  - apply preserves_try_catch; auto using preserves_body, preserves_handler.
  - apply preserves_handler.
Qed.

Lemma preserves_dispatch listeners : forall st,
  P st -> P (dispatch listeners st).
Proof.
  unfold dispatch. induction listeners as [|f l IH]; cbn; intros st H.
  - exact H.
  - apply IH. now apply preserves_call.
Qed.

(** Every task of the event loop keeps [P]. *)
Lemma step_preserves now ev st st' :
  step now ev st = Some st' -> P st -> P st'.
Proof.
  unfold step. destruct (now <? clock st); [discriminate|].
  intros S H. apply (P_clock now) in H.
  destruct ev as [|[]|k|id r|id r].
  - injection S as <-.
    destruct (videoFeed_onerror _); [now apply preserves_call | exact H].
  - injection S as <-. now apply preserves_dispatch.
  - injection S as <-. now apply preserves_dispatch.
  - unfold fire in S.
    destruct (nth_error _ k) as [t|] eqn:N; [|discriminate].
    destruct (due t <=? _); [|discriminate]. injection S as <-.
    apply preserves_call. now apply P_fired.
  - destruct (lookup id _) as [[f []]|]; try discriminate.
    injection S as <-. now apply preserves_after_fetch, P_pending.
  - destruct (lookup id _) as [[f []]|]; try discriminate.
    injection S as <-. now apply preserves_after_json, P_pending.
Qed.

End Invariant.

Lemma In_firstn A (x : A) k : forall l, In x (firstn k l) -> In x l.
Proof.
  induction k as [|k IH]; intros [|y l]; cbn; try tauto.
  intros [E|I]; [now left | right; now apply IH].
Qed.

Lemma In_skipn A (x : A) k : forall l, In x (skipn k l) -> In x l.
Proof.
  induction k as [|k IH]; intros [|y l]; cbn; try tauto.
  intros I. right. now apply IH.
Qed.

(** What the script wires up stays wired. *)
Lemma step_wired now ev st st' :
  step now ev st = Some st' -> wired st -> wired st'.
Proof.
  apply step_preserves; try (intros; exact H);
    try (intros ? ? H; exact H); try (intros ? H; exact H).
  - intros s (A & B & C & D). repeat split; try assumption.
    cbn. intros t I. apply in_app_or in I as [I|[<-|[]]]; [now apply D|].
    now left.
  - intros k t s N (A & B & C & D). repeat split; try assumption.
    cbn [timers with_timers]. intros t' I. apply in_app_or in I as [I|I].
    + apply D. now apply In_firstn in I.
    + apply in_app_or in I as [I|I].
      * destruct (repeat t); [|destruct I].
        destruct I as [<-|[]]. cbn. apply D.
        now apply nth_error_In in N.
      * apply D. now apply In_skipn in I.
  - intros s (A & B & C & D). repeat split; assumption.
Qed.

Lemma boot_wired now d :
  startBtn_click d = [] -> stopBtn_click d = [] -> wired (boot now d).
Proof.
  intros A B. unfold wired. cbn. rewrite A, B. repeat split.
  intros t [E|[]]. rewrite <- E. now right.
Qed.

Lemma reachable_wired st : reachable st -> wired st.
Proof.
  induction 1 as [now d A B|st now ev st' _ IH S].
  - now apply boot_wired.
  - eapply step_wired; eassumption.
Qed.

(** No task of the event loop hides the banner. *)
Lemma step_banner_visible now ev st st' :
  step now ev st = Some st' -> banner_visible st -> banner_visible st'.
Proof.
  apply step_preserves; try (intros; exact H);
    try (intros ? ? H; exact H); try (intros ? H; exact H).
  - intros k t s _ H. exact H.
  - intros s _. reflexivity.
Qed.

Lemma run_banner_visible evs st st' :
  run evs st = Some st' -> banner_visible st -> banner_visible st'.
Proof.
  revert st st'. induction evs as [|[now ev] evs IH]; cbn; intros st st' E H.
  - now injection E as <-.
  - destruct (step now ev st) as [st1|] eqn:S; [|discriminate].
    eapply IH; [exact E|]. eapply step_banner_visible; eassumption.
Qed.

(** ** The stream *)

Lemma step_image_error st now st' :
  wired st -> step now ImageError st = Some st' ->
  st' = exec videoFeed_onerror_handler (with_clock now st).
Proof.
  intros (A & _). unfold step. destruct (now <? clock st); [discriminate|].
  cbn [page with_clock]. rewrite A. now intros [= <-].
Qed.

(** No timer fires before it is due, and a fired timer runs its
    callback. *)
Lemma step_timer_fires st now k t st' :
  nth_error (timers st) k = Some t ->
  step now (TimerFires k) st = Some st' ->
  due t <= now /\
  exists st1, page st1 = page st /\ clock st1 = now /\
              st' = exec (call (callback t)) st1.
Proof.
  intros N. unfold step. destruct (now <? clock st); [discriminate|].
  unfold fire. cbn [timers with_clock clock]. rewrite N.
  destruct (due t <=? now) eqn:D; [|discriminate].
  intros [= <-]. split; [now apply Z.leb_le|].
  eexists. split; [|split]; [| |reflexivity]; reflexivity.
Qed.

(** C8: at every load error of the stream, however many came before, the
    banner at once reads "Video feed error. Retrying..." and is shown, and
    exactly one timeout is set, for [initVideoFeed] and 2000 ms ahead.  That
    timeout cannot fire earlier than 2000 ms after the error, and when it
    fires the source is set anew and the handler is in place again; so every
    later error, in any later state of the page, sets its retry in the same
    way with the same delay. *)
Theorem stream_error_retries st now st' :
  reachable st ->
  step now ImageError st = Some st' ->
  let retry :=
    {| due := now + 2000; callback := initVideoFeed_fn; repeat := None |} in
  errorDiv_textContent (page st') = "Video feed error. Retrying..." /\
  banner_visible st' /\
  timers st' = (timers st ++ [retry])%list /\
  trace st' = (trace st ++ [SetTimeout initVideoFeed_fn 2000])%list /\
  (forall s later k s',
     nth_error (timers s) k = Some retry ->
     step later (TimerFires k) s = Some s' ->
     now + 2000 <= later /\
     videoFeed_src (page s') = "/video_feed?" ++ integer_toString later /\
     videoFeed_onerror (page s') = Some onerror_fn) /\
  (forall evs s later s',
     run evs st' = Some s ->
     step later ImageError s = Some s' ->
     timers s'
     = (timers s ++ [{| due := later + 2000; callback := initVideoFeed_fn;
                        repeat := None |}])%list).
Proof.
  intros R S retry.
  pose proof (reachable_step _ _ _ _ R S) as R'.
  rewrite (step_image_error _ _ _ (reachable_wired _ R) S).
  conjuncts; try reflexivity.
  - intros s later k s' N F.
    destruct (step_timer_fires _ _ _ _ _ N F) as (D & st1 & _ & C & ->).
    split; [exact D|]. cbn. rewrite C. split; reflexivity.
  - intros evs s later s' E F.
    rewrite <- (step_image_error _ _ _ (reachable_wired _ R) S) in E.
    pose proof (run_reachable _ _ _ R' E) as Rs.
    now rewrite (step_image_error _ _ _ (reachable_wired _ Rs) F).
Qed.

Lemma stream_error_retries_witness :
  let st' := after [(1500, ImageError)] loaded in
  errorDiv_textContent (page st') = "Video feed error. Retrying..." /\
  banner_visible st' /\
  timers st'
  = (timers loaded
       ++ [{| due := 3500; callback := initVideoFeed_fn; repeat := None |}])%list /\
  step 3499 (TimerFires 1) st' = None.
Proof.
  intros st'.
  destruct (stream_error_retries loaded 1500 st' loaded_reachable eq_refl)
    as (A & B & C & _ & D & _).
  conjuncts; [exact A | exact B | exact C |].
  destruct (step 3499 (TimerFires 1) st') as [s'|] eqn:F; [|reflexivity].
  destruct (D st' 3499 1%nat s' eq_refl F) as (E & _). cbn in E. lia.
Defined.

(** ** The banner *)

Lemma step_click_start st now st' :
  wired st -> step now (Click startBtn) st = Some st' ->
  st' = exec startBtn_click_listener (with_clock now st).
Proof.
  intros (_ & A & _). unfold step. destruct (now <? clock st); [discriminate|].
  cbn [page with_clock]. rewrite A. now intros [= <-].
Qed.

Lemma step_click_stop st now st' :
  wired st -> step now (Click stopBtn) st = Some st' ->
  st' = exec stopBtn_click_listener (with_clock now st).
Proof.
  intros (_ & _ & A & _). unfold step.
  destruct (now <? clock st); [discriminate|].
  cbn [page with_clock]. rewrite A. now intros [= <-].
Qed.

(** The banner's text changes only at a failure, to the failure's
    message. *)
Lemma step_banner_text st now ev st' :
  wired st -> step now ev st = Some st' ->
  errorDiv_textContent (page st') = errorDiv_textContent (page st) \/
  exists m, failure st ev m /\ errorDiv_textContent (page st') = m.
Proof.
  intros W S. destruct ev as [|[]|k|id r|id r].
  - right. eexists. split; [constructor|].
    now rewrite (step_image_error _ _ _ W S).
  - left. now rewrite (step_click_start _ _ _ W S).
  - left. now rewrite (step_click_stop _ _ _ W S).
  - left. pose proof S as S'. unfold step in S'.
    destruct (now <? clock st); [discriminate|]. unfold fire in S'.
    cbn [timers with_clock] in S'.
    destruct (nth_error (timers st) k) as [t|] eqn:N; [|discriminate].
    clear S'.
    destruct (step_timer_fires _ _ _ _ _ N S) as (_ & st1 & Pg & _ & ->).
    destruct W as (_ & _ & _ & T).
    destruct (T t (nth_error_In _ _ N)) as [-> | ->]; cbn; now rewrite Pg.
  - pose proof S as S'. unfold step in S'.
    destruct (now <? clock st); [discriminate|].
    cbn [pending with_clock] in S'.
    destruct (lookup id (pending st)) as [[f []]|] eqn:L; try discriminate.
    clear S'. rewrite (step_fetch_inv _ _ _ _ _ _ L S).
    destruct r as [[]|e]; [now left|].
    destruct f; [now left | right | right];
      (eexists; split; [now constructor | reflexivity]).
  - pose proof S as S'. unfold step in S'.
    destruct (now <? clock st); [discriminate|].
    cbn [pending with_clock] in S'.
    destruct (lookup id (pending st)) as [[f []]|] eqn:L; try discriminate.
    clear S'. rewrite (step_json_inv _ _ _ _ _ _ L S).
    destruct r as [data|e].
    + destruct f.
      * left. destruct data; try reflexivity;
          unfold exec, after_json, body, try_catch;
          rewrite checkStatus_body_run by discriminate; reflexivity.
      * destruct (json_null_dec data) as [->|N].
        -- right. eexists. split; [now constructor | reflexivity].
        -- unfold exec, after_json, body, try_catch.
           rewrite start_body_run by exact N.
           destruct (strict_equals (property "status" data) "error") eqn:E.
           ++ right. apply strict_equals_spec in E.
              eexists. split; [now constructor | reflexivity].
           ++ now left.
      * now left.
    + destruct f; [now left | right | right];
        (eexists; split; [now constructor | reflexivity]).
Qed.

(** C10, as the claim has it, fails on the text: the banner is showing the
    stream's message when a start is refused with an empty message, and the
    text is emptied while the banner stays shown. *)
Lemma refused_start_empties_banner :
  reachable restarted /\
  banner_visible restarted /\
  errorDiv_textContent (page restarted) = "Video feed error. Retrying..." /\
  exists st',
    step 1700 (JsonSettles 1 (Resolved (error_response ""))) restarted
    = Some st' /\
    banner_visible st' /\
    errorDiv_textContent (page st') = "".
Proof.
  conjuncts; try evaluate.
  - apply after_reachable, after_reachable, loaded_reachable.
  - exists (after [(1700, JsonSettles 1 (Resolved (error_response "")))]
              restarted).
    conjuncts; evaluate.
Qed.

(** C10, amended: once the banner is shown, it is shown in every later
    state of the page: no operation hides it.  Its text is left as it is by
    every event that is not a failure, so by each start, stop or status
    operation that succeeds; a failure (stream error, failed start, failed
    stop) replaces the text with its own message, which is empty when a
    failed start carries an empty message. *)
Theorem banner_never_hidden st evs s :
  reachable st -> banner_visible st ->
  run evs st = Some s ->
  banner_visible s /\
  forall now ev s',
    step now ev s = Some s' ->
    banner_visible s' /\
    (errorDiv_textContent (page s') = errorDiv_textContent (page s) \/
     exists m, failure s ev m /\ errorDiv_textContent (page s') = m).
Proof.
  intros R V E.
  pose proof (run_banner_visible _ _ _ E V) as Vs.
  split; [exact Vs|]. intros now ev s' S. split.
  - eapply step_banner_visible; eassumption.
  - apply (step_banner_text _ _ _ _
             (reachable_wired _ (run_reachable _ _ _ R E)) S).
Qed.

Lemma banner_never_hidden_witness :
  banner_visible (after restart_and_poll failed_once).
Proof.
  assert (R : reachable failed_once)
    by apply after_reachable, loaded_reachable.
  assert (V : banner_visible failed_once) by evaluate.
  assert (E : run restart_and_poll failed_once
              = Some (after restart_and_poll failed_once)) by evaluate.
  exact (proj1 (banner_never_hidden failed_once restart_and_poll _ R V E)).
Defined.

(** * Further properties of the script *)

(** ** What each event runs *)

Lemma step_runs st now ev st' :
  wired st -> step now ev st = Some st' ->
  exists c st0,
    runs st ev c /\ page st0 = page st /\ trace st0 = trace st /\
    clock st0 = now /\ next_id st0 = next_id st /\ st' = exec c st0.
Proof.
  intros W S. pose proof W as (_ & _ & _ & T).
  destruct ev as [|[]|k|id r|id r].
  - rewrite (step_image_error _ _ _ W S).
    exists videoFeed_onerror_handler, (with_clock now st).
    split; [constructor|]. now conjuncts.
  - rewrite (step_click_start _ _ _ W S).
    exists startBtn_click_listener, (with_clock now st).
    split; [constructor|]. now conjuncts.
  - rewrite (step_click_stop _ _ _ W S).
    exists stopBtn_click_listener, (with_clock now st).
    split; [constructor|]. now conjuncts.
  - unfold step in S. destruct (now <? clock st); [discriminate|].
    unfold fire in S. cbn [timers with_clock clock] in S.
    destruct (nth_error (timers st) k) as [t|] eqn:N; [|discriminate].
    destruct (due t <=? now); [|discriminate]. injection S as <-.
    match goal with
    | |- context [exec _ ?s] => exists (call (callback t)), s
    end.
    split; [|now conjuncts].
    destruct (T t (nth_error_In _ _ N)) as [C|C]; rewrite C;
      econstructor; eassumption.
  - pose proof S as S'. unfold step in S'.
    destruct (now <? clock st); [discriminate|].
    cbn [pending with_clock] in S'.
    destruct (lookup id (pending st)) as [[f []]|] eqn:L; try discriminate.
    clear S'. rewrite (step_fetch_inv _ _ _ _ _ _ L S).
    exists (after_fetch id f r), (with_pending (remove id) (with_clock now st)).
    split; [now constructor|]. now conjuncts.
  - pose proof S as S'. unfold step in S'.
    destruct (now <? clock st); [discriminate|].
    cbn [pending with_clock] in S'.
    destruct (lookup id (pending st)) as [[f []]|] eqn:L; try discriminate.
    clear S'. rewrite (step_json_inv _ _ _ _ _ _ L S).
    exists (after_json f r), (with_pending (remove id) (with_clock now st)).
    split; [now constructor|]. now conjuncts.
Qed.

(** ** Start-up *)

(** When the page has loaded, the script has set the stream source from the
    clock and installed the error handler, added one listener to each
    control, sent one status request at once (not after the first period),
    and set the one repeating timer; the status label, the controls and the
    banner are still as the markup has them. *)
Theorem boot_initialises now d :
  let st := boot now d in
  videoFeed_src (page st) = "/video_feed?" ++ integer_toString now /\
  videoFeed_onerror (page st) = Some onerror_fn /\
  startBtn_click (page st) = (startBtn_click d ++ [startBtn_click_fn])%list /\
  stopBtn_click (page st) = (stopBtn_click d ++ [stopBtn_click_fn])%list /\
  status_display (page st) = status_display d /\
  banner (page st) = banner d /\
  trace st = [LoadImage ("/video_feed?" ++ integer_toString now);
              Fetch "/status" None; SetInterval checkStatus_fn 3000] /\
  pending st = [(0%nat, (checkStatus_frame, await_fetch))] /\
  timers st = [{| due := now + 3000; callback := checkStatus_fn;
                  repeat := Some 3000 |}].
Proof. cbn. now conjuncts. Qed.

(** ** The controls *)



(** ** The retry chain *)

(** Stream errors pile up retries: every error sets its own timeout, 2000 ms
    after its own instant, and none is cancelled or merged; as long as no
    retry has fired the source is not touched. *)
Theorem stream_errors_accumulate times : forall st st',
  reachable st ->
  run (map (fun t => (t, ImageError)) times) st = Some st' ->
  timers st'
  = (timers st
       ++ map (fun t => {| due := t + 2000; callback := initVideoFeed_fn;
                           repeat := None |}) times)%list /\
  videoFeed_src (page st') = videoFeed_src (page st) /\
  loads (trace st') = loads (trace st).
Proof.
  induction times as [|t times IH]; cbn [map run]; intros st st' R E.
  - injection E as <-. rewrite app_nil_r. now conjuncts.
  - destruct (step t ImageError st) as [st1|] eqn:S; [|discriminate].
    destruct (IH st1 st' (reachable_step _ _ _ _ R S) E) as (A & B & C).
    rewrite A, B, C.
    rewrite (step_image_error _ _ _ (reachable_wired _ R) S).
    cbn. rewrite <- app_assoc. unfold loads. rewrite flat_map_app.
    cbn. rewrite app_nil_r. now conjuncts.
Qed.

Lemma stream_errors_accumulate_witness :
  let st' := after [(1500, ImageError); (1600, ImageError)] loaded in
  timers st'
  = (timers loaded
       ++ [{| due := 3500; callback := initVideoFeed_fn; repeat := None |};
           {| due := 3600; callback := initVideoFeed_fn; repeat := None |}])%list.
Proof.
  intros st'.
  assert (E : run (map (fun t => (t, ImageError)) [1500; 1600]) loaded
              = Some st') by evaluate.
  exact (proj1 (stream_errors_accumulate _ loaded st' loaded_reachable E)).
Defined.

(** ** The periodic poll *)

Lemma nth_error_cut A (t : A) k : forall l,
  nth_error l k = Some t -> l = (firstn k l ++ t :: skipn (S k) l)%list.
Proof.
  induction k as [|k IH]; intros [|x l]; cbn; try discriminate.
  - now intros [= ->].
  - intros N. f_equal. now apply IH.
Qed.

Lemma step_intervals now ev st st' :
  step now ev st = Some st' ->
  intervals st = [(checkStatus_fn, Some 3000)] ->
  intervals st' = [(checkStatus_fn, Some 3000)].
Proof.
  apply (step_preserves
           (fun s => intervals s = [(checkStatus_fn, Some 3000)]));
    try (intros; exact H);
    try (intros ? ? H; exact H); try (intros ? H; exact H).
  - intros s H. unfold intervals in *. cbn.
    rewrite filter_app. cbn. now rewrite app_nil_r.
  - intros k t s N H. unfold intervals in *. cbn [timers with_timers].
    rewrite (nth_error_cut _ _ _ _ N) in H.
    rewrite !filter_app, !map_app in *. cbn [filter map] in H.
    unfold is_interval at 2 in H.
    destruct (repeat t) as [period|] eqn:Rp; cbn; [|exact H].
    cbn in H. now rewrite Rp in H.
Qed.

(** The status poll never stops: in every state of the page's lifetime
    there is exactly one repeating timer, it calls [checkStatus] and its
    period is 3000 ms; nothing the script does clears or doubles it. *)
Theorem poll_never_stops st :
  reachable st -> intervals st = [(checkStatus_fn, Some 3000)].
Proof.
  induction 1 as [now d _ _|st now ev st' _ IH S].
  - reflexivity.
  - eapply step_intervals; eassumption.
Qed.

Lemma poll_never_stops_witness :
  intervals (after restart_and_poll failed_once)
  = [(checkStatus_fn, Some 3000)].
Proof.
  apply poll_never_stops.
  apply after_reachable, after_reachable, loaded_reachable.
Defined.

Lemma interval_is_poll st t :
  intervals st = [(checkStatus_fn, Some 3000)] ->
  In t (timers st) -> is_interval t = true ->
  callback t = checkStatus_fn /\ repeat t = Some 3000.
Proof.
  unfold intervals. intros H I R.
  assert (J : In (callback t, repeat t)
                (map (fun t => (callback t, repeat t))
                   (filter is_interval (timers st)))).
  { apply in_map_iff. exists t. split; [reflexivity|].
    apply filter_In. now split. }
  rewrite H in J. destruct J as [[= <- <-]|[]]. now split.
Qed.

(** A tick of the poll: when the repeating timer fires, exactly one status
    request leaves, nothing on the page changes, and the timer is set again
    3000 ms after the instant it fired. *)
Theorem poll_tick st now k t st' :
  reachable st ->
  nth_error (timers st) k = Some t -> is_interval t = true ->
  step now (TimerFires k) st = Some st' ->
  page st' = page st /\
  trace st' = (trace st ++ [Fetch "/status" None])%list /\
  pending st'
  = (pending st ++ [(next_id st, (checkStatus_frame, await_fetch))])%list /\
  nth_error (timers st') k
  = Some {| due := now + 3000; callback := checkStatus_fn;
            repeat := Some 3000 |} /\
  List.length (timers st') = List.length (timers st).
Proof.
  intros R N I S.
  destruct (interval_is_poll _ _ (poll_never_stops _ R)
              (nth_error_In _ _ N) I) as (C & P).
  pose proof S as S'. unfold step in S'.
  destruct (now <? clock st); [discriminate|]. unfold fire in S'.
  cbn [timers with_clock clock] in S'. rewrite N in S'.
  destruct (due t <=? now); [|discriminate]. injection S' as <-.
  rewrite C, P. cbn -[skipn firstn Z.add].
  assert (Lk : List.length (firstn k (timers st)) = k).
  { apply firstn_length_le, Nat.lt_le_incl, nth_error_Some. congruence. }
  conjuncts; try reflexivity.
  - rewrite nth_error_app2 by (rewrite Lk; apply Nat.le_refl).
    now rewrite Lk, Nat.sub_diag.
  - pose proof (f_equal (@List.length _) (nth_error_cut _ _ _ _ N)) as Hl.
    rewrite List.length_app in Hl. rewrite List.length_app.
    cbn [List.length] in *. exact (eq_sym Hl).
Qed.

Lemma poll_tick_witness :
  let st' := after [(4000, TimerFires 0)] polled in
  page st' = page polled /\
  trace st' = (trace polled ++ [Fetch "/status" None])%list /\
  nth_error (timers st') 0
  = Some {| due := 7000; callback := checkStatus_fn; repeat := Some 3000 |}.
Proof.
  intros st'.
  assert (R : reachable polled) by apply after_reachable, loaded_reachable.
  assert (N : nth_error (timers polled) 0
              = Some {| due := 4000; callback := checkStatus_fn;
                        repeat := Some 3000 |}) by evaluate.
  assert (E : step 4000 (TimerFires 0) polled = Some st') by evaluate.
  destruct (poll_tick polled 4000 0%nat _ st' R N eq_refl E)
    as (A & B & _ & C & _).
  conjuncts; [exact A | exact B | exact C].
Defined.

(** ** Answers to the status poll *)

Lemma checkStatus_answer st0 data :
  data <> JNull ->
  let s := exec (after_json checkStatus_frame (Resolved data)) st0 in
  status_display (page s) = display_of data /\
  banner (page s) = banner (page st0) /\
  videoFeed_src (page s) = videoFeed_src (page st0) /\
  trace s = trace st0 /\ timers s = timers st0 /\ pending s = pending st0.
Proof.
  intros N. unfold exec, after_json, body, try_catch.
  rewrite checkStatus_body_run by exact N.
  unfold display_of, status_display. cbn.
  destruct (ToBoolean (property "running" data)); now conjuncts.
Qed.

(** The status shown is decided by the truthiness of [running] alone: any
    body but [null] whose [running] is truthy (true, a number other than
    zero, a string that is not empty, an array, an object) shows "Status:
    Running" in green with start disabled and stop enabled, any other shows
    "Status: Not Running" in red with start enabled and stop disabled; the
    four always agree, and the banner, the stream and the timers are not
    touched. *)
Theorem status_answer_display st now id data st' :
  lookup id (pending st) = Some (checkStatus_frame, await_json) ->
  data <> JNull ->
  step now (JsonSettles id (Resolved data)) st = Some st' ->
  status_display (page st') = display_of data /\
  banner (page st') = banner (page st) /\
  videoFeed_src (page st') = videoFeed_src (page st) /\
  trace st' = trace st /\
  timers st' = timers st.
Proof.
  intros L N S. rewrite (step_json_inv _ _ _ _ _ _ L S).
  destruct (checkStatus_answer (with_pending (remove id) (with_clock now st))
              data N) as (A & B & C & D & E & _).
  now conjuncts.
Qed.

Lemma status_answer_display_witness :
  let yes := JObject [("running", JString "yes")] in
  let st' := after [(1050, JsonSettles 0 (Resolved yes))] polled in
  status_display (page st') = ("Status: Running", "green", true, false).
Proof.
  intros yes st'.
  assert (E : step 1050 (JsonSettles 0 (Resolved yes)) polled = Some st')
    by evaluate.
  exact (proj1 (status_answer_display polled 1050 0%nat yes st'
                  eq_refl ltac:(discriminate) E)).
Defined.




(** ** A start that fails *)

(** When the request to start is rejected, or the body of its response does
    not parse, the banner is shown with the message of the error that was
    thrown; the status, the controls and the stream stay as they are, and no
    request follows. *)
Theorem start_failure_shows_error st now ev id e st' :
  (ev = FetchSettles id (Rejected e) /\
   lookup id (pending st) = Some (start_frame, await_fetch)) \/
  (ev = JsonSettles id (Rejected e) /\
   lookup id (pending st) = Some (start_frame, await_json)) ->
  step now ev st = Some st' ->
  banner (page st') = (message e, "block") /\
  status_display (page st') = status_display (page st) /\
  videoFeed_src (page st') = videoFeed_src (page st) /\
  trace st' = trace st /\
  timers st' = timers st.
Proof.
  intros [[-> L]|[-> L]] S.
  - rewrite (step_fetch_inv _ _ _ _ _ _ L S). now conjuncts.
  - rewrite (step_json_inv _ _ _ _ _ _ L S). now conjuncts.
Qed.

Lemma start_failure_shows_error_witness :
  let st' := after [(1600, FetchSettles 1 (Rejected network_error))]
               start_clicked in
  banner (page st') = ("Failed to fetch", "block") /\
  trace st' = trace start_clicked.
Proof.
  intros st'.
  assert (E : step 1600 (FetchSettles 1 (Rejected network_error)) start_clicked
              = Some st') by evaluate.
  destruct (start_failure_shows_error start_clicked 1600 _ 1%nat
              network_error st' (or_introl (conj eq_refl eq_refl)) E)
    as (A & _ & _ & B & _).
  split; [exact A | exact B].
Defined.

(** What the banner says when start is refused ([status] is "error") and
    [message] is not a string: nothing at all when there is no [message],
    "null" when it is [null], and "[object Object]" when it is an object
    (one without a member [toString]). *)
Theorem start_refused_odd_message st now id data st' :
  lookup id (pending st) = Some (start_frame, await_json) ->
  property "status" data = Some (JString "error") ->
  step now (JsonSettles id (Resolved data)) st = Some st' ->
  banner_visible st' /\
  (property "message" data = None ->
   errorDiv_textContent (page st') = "") /\
  (property "message" data = Some JNull ->
   errorDiv_textContent (page st') = "null") /\
  (forall members,
     property "message" data = Some (JObject members) ->
     own_property "toString" members = None ->
     errorDiv_textContent (page st') = "[object Object]").
Proof.
  intros L E S. rewrite (step_json_inv _ _ _ _ _ _ L S).
  assert (N : data <> JNull) by (intros ->; discriminate).
  unfold exec, after_json, body, try_catch, banner_visible.
  rewrite start_body_run by exact N.
  apply strict_equals_spec in E. rewrite E.
  conjuncts.
  - reflexivity.
  - intros ->. reflexivity.
  - intros ->. reflexivity.
  - intros members -> T. cbn. now rewrite T.
Qed.

Lemma start_refused_odd_message_witness :
  let refusal := JObject [("status", JString "error")] in
  let st' := after [(1600, JsonSettles 1 (Resolved refusal))] started in
  banner_visible st' /\ errorDiv_textContent (page st') = "".
Proof.
  intros refusal st'.
  assert (E : step 1600 (JsonSettles 1 (Resolved refusal)) started = Some st')
    by evaluate.
  destruct (start_refused_odd_message started 1600 1%nat refusal st'
              eq_refl eq_refl E) as (A & B & _).
  split; [exact A | apply B; reflexivity].
Defined.

(** ** What each part of the page depends on *)

Lemma loads_snoc tr e :
  loads (tr ++ [e])
  = (loads tr ++ match e with LoadImage s => [s] | _ => [] end)%list.
Proof. unfold loads. rewrite flat_map_app. cbn. now rewrite app_nil_r. Qed.

Ltac frames :=
  unfold exec, after_json, after_fetch, body, handler, try_catch;
  cbn -[integer_toString Z.add].

(** The status label and the controls change only when a status poll is
    answered with a usable body; clicks, start and stop responses, stream
    errors, retries and failed polls leave them alone.  In particular a
    click does not disable its control, and a successful start or stop does
    not flip the status by itself: only the poll that follows does. *)
Theorem status_changes_only_at_answer st now ev st' :
  reachable st -> step now ev st = Some st' ->
  status_display (page st') = status_display (page st) \/
  exists data, status_answer st ev data /\
               status_display (page st') = display_of data.
Proof.
  intros R S.
  destruct (step_runs _ _ _ _ (reachable_wired _ R) S)
    as (c & st0 & Rn & Pg & _ & _ & _ & ->).
  rewrite <- Pg. destruct Rn as [| | |k t N C|k t N C|id f r L|id f r L];
    try (left; reflexivity).
  - left. destruct r, f; reflexivity.
  - destruct r as [data|e]; [|left; destruct f; reflexivity].
    destruct (json_null_dec data) as [->|N]; [left; destruct f; reflexivity|].
    destruct f.
    + right. exists data. split; [now constructor|].
      now destruct (checkStatus_answer st0 data N).
    + left. frames. rewrite start_body_run by exact N.
      now destruct (strict_equals _ _).
    + left. reflexivity.
Qed.

Lemma status_changes_only_at_answer_witness :
  status_display
    (page (after [(1600, JsonSettles 1 (Resolved ok_response))] started))
  = status_display (page started).
Proof.
  assert (R : reachable started) by apply after_reachable, loaded_reachable.
  assert (E : step 1600 (JsonSettles 1 (Resolved ok_response)) started
              = Some (after [(1600, JsonSettles 1 (Resolved ok_response))]
                        started)) by evaluate.
  destruct (status_changes_only_at_answer _ _ _ _ R E) as [H|(data & A & _)].
  - exact H.
  - inversion A as [id d L N]; subst. vm_compute in L. discriminate L.
Defined.

(** The banner changes only at a failure (a stream error, a failed start, a
    failed stop), which shows it with the failure's message: no successful
    operation and no status poll, failed or not, ever shows or rewrites
    it. *)
Theorem banner_changes_only_at_failure st now ev st' :
  reachable st -> step now ev st = Some st' ->
  banner (page st') = banner (page st) \/
  exists m, failure st ev m /\ banner (page st') = (m, "block").
Proof.
  intros R S.
  destruct (step_runs _ _ _ _ (reachable_wired _ R) S)
    as (c & st0 & Rn & Pg & _ & _ & _ & ->).
  rewrite <- Pg. destruct Rn as [| | |k t N C|k t N C|id f r L|id f r L];
    try (left; reflexivity).
  - right. eexists. split; [constructor | reflexivity].
  - destruct r as [[]|e]; [left; reflexivity|].
    destruct f; [left; reflexivity | right | right];
      (eexists; split; [now constructor | reflexivity]).
  - destruct r as [data|e].
    + destruct (json_null_dec data) as [->|N].
      * destruct f; [left; reflexivity | right | left; reflexivity].
        eexists. split; [now constructor | reflexivity].
      * destruct f.
        -- left. now destruct (checkStatus_answer st0 data N) as (_ & -> & _).
        -- frames. rewrite start_body_run by exact N.
           destruct (strict_equals (property "status" data) "error") eqn:E;
             [|now left].
           right. apply strict_equals_spec in E.
           eexists. split; [now constructor | reflexivity].
        -- left. reflexivity.
    + destruct f; [left; reflexivity | right | right];
        (eexists; split; [now constructor | reflexivity]).
Qed.

Lemma banner_changes_only_at_failure_witness :
  banner (page (after [(1100, FetchSettles 0 (Rejected network_error))] loaded))
  = banner (page loaded).
Proof.
  assert (E : step 1100 (FetchSettles 0 (Rejected network_error)) loaded
              = Some (after [(1100, FetchSettles 0 (Rejected network_error))]
                        loaded)) by evaluate.
  destruct (banner_changes_only_at_failure _ _ _ _ loaded_reachable E)
    as [H|(m & F & _)].
  - exact H.
  - inversion F as [ |id e L|id e L|id L|id d L|id e L|id e L]; subst;
      vm_compute in L; discriminate L.
Defined.

(** The stream is reloaded only by a retry that fires and by a start that
    succeeds, and then with the clock's reading of that instant; a stop, a
    status poll, a click, a failure leave the source alone.  In particular
    stopping the detection does not reset the stream. *)
Theorem stream_reloads_only_by_init st now ev st' :
  reachable st -> step now ev st = Some st' ->
  (videoFeed_src (page st') = videoFeed_src (page st) /\
   loads (trace st') = loads (trace st)) \/
  (reload st ev /\
   videoFeed_src (page st') = "/video_feed?" ++ integer_toString now /\
   loads (trace st')
   = (loads (trace st)
        ++ [("/video_feed?" ++ integer_toString now)%string])%list).
Proof.
  intros R S.
  destruct (step_runs _ _ _ _ (reachable_wired _ R) S)
    as (c & st0 & Rn & Pg & Tr & Ck & _ & ->).
  rewrite <- Pg, <- Tr, <- Ck.
  destruct Rn as [| | |k t N C|k t N C|id f r L|id f r L].
  - left. frames. now rewrite !loads_snoc, app_nil_r.
  - left. frames. now rewrite !loads_snoc, app_nil_r.
  - left. frames. now rewrite !loads_snoc, app_nil_r.
  - right. split; [econstructor; eassumption|].
    frames. now rewrite !loads_snoc.
  - left. frames. now rewrite !loads_snoc, app_nil_r.
  - left. destruct r, f; frames; rewrite ?loads_snoc, ?app_nil_r; now split.
  - destruct r as [data|e];
      [|left; destruct f; frames; rewrite ?loads_snoc, ?app_nil_r; now split].
    destruct (json_null_dec data) as [->|N];
      [left; destruct f; frames; rewrite ?loads_snoc, ?app_nil_r; now split|].
    destruct f.
    + left. now destruct (checkStatus_answer st0 data N)
        as (_ & _ & -> & -> & _).
    + frames. rewrite start_body_run by exact N.
      destruct (strict_equals (property "status" data) "error") eqn:E.
      * left. now split.
      * right. split.
        -- constructor; [exact L | exact N |].
           intros E'. apply strict_equals_spec in E'. congruence.
        -- frames. now rewrite !loads_snoc, app_nil_r.
    + left. frames. now rewrite !loads_snoc, app_nil_r.
Qed.

Lemma stream_reloads_only_by_init_witness :
  videoFeed_src
    (page (after [(1600, JsonSettles 1 (Resolved JNull))] stopping))
  = videoFeed_src (page stopping).
Proof.
  assert (R : reachable stopping) by apply after_reachable, loaded_reachable.
  assert (E : step 1600 (JsonSettles 1 (Resolved JNull)) stopping
              = Some (after [(1600, JsonSettles 1 (Resolved JNull))] stopping))
    by evaluate.
  destruct (stream_reloads_only_by_init _ _ _ _ R E) as [[H _]|(A & _)].
  - exact H.
  - inversion A as [k t N C|id d L N P]; subst. vm_compute in L. discriminate L.
Defined.
